(** * The Prompting synapse of examples/prompting.ipynb

    A shallow embedding of the notebook's code cell: the [Prompting]
    synapse class, the three functions attached to the axon ([prompt],
    [blacklist], [priority]) and the demonstration call.

    Python objects are mutable and passed by reference, so a synapse is a
    location in a heap and every function runs in a state-and-exception
    monad over the interpreter's world (heap and debug log). *)

From Stdlib Require Import Floats.PrimFloat.
From stdpp Require Import base option gmap strings list.

Local Open Scope string_scope.

(** ** Python-side data *)

(** The exceptions the modelled code can raise.  [ReferenceError] is the
    model's own: a location that is not allocated, which Python's
    references rule out. *)
Inductive exn : Type :=
| TypeError (msg : string)
| ValidationError (errors : list (string * string))
| ReferenceError.

(** [class Prompting( bt.Synapse )], lines 36-60: the three fields the
    class declares.  [completion: str = None] holds [None] or a string. *)
Record Prompting : Type := mkPrompting {
  roles : list string;
  messages : list string;
  completion : option string
}.

Inductive field : Type := Froles | Fmessages | Fcompletion.

Definition field_name (f : field) : string :=
  match f with
  | Froles => "roles"
  | Fmessages => "messages"
  | Fcompletion => "completion"
  end.

(** Declaration order of the class body, which is also the order of the
    instance's [__dict__]. *)
Definition all_fields : list field := [Froles; Fmessages; Fcompletion].

(** What [pydantic.Field] records for a field: [...] in place of a default
    makes the field required, [allow_mutation] defaults to [True]. *)
Record FieldInfo : Type := mkFieldInfo {
  required : bool;
  allow_mutation : bool
}.

(** Lines 53-55. *)
Definition field_info (f : field) : FieldInfo :=
  match f with
  | Froles => {| required := true; allow_mutation := false |}
  | Fmessages => {| required := true; allow_mutation := false |}
  | Fcompletion => {| required := false; allow_mutation := true |}
  end.

(** The entry of a validation error for a keyword that was not passed. *)
Definition missing {A : Type} (f : field) (kw : option A) : list (string * string) :=
  match kw with
  | None =>
      if required (field_info f) then [(field_name f, "field required")] else []
  | Some _ => []
  end.

(** Line 55: the class-level default of [completion]. *)
Definition completion_default : option string := None.

(** Line 50: [class Config: validate_assignment = True]. *)
Record ModelConfig : Type := mkConfig { validate_assignment : bool }.

Definition Config : ModelConfig := {| validate_assignment := true |}.

(** A dynamically typed view of a field's content, for code that walks
    over fields by name. *)
Inductive value : Type :=
| VNone
| VStr (s : string)
| VList (l : list string).

Definition field_value (f : field) (E : Prompting) : value :=
  match f with
  | Froles => VList (roles E)
  | Fmessages => VList (messages E)
  | Fcompletion => from_option VStr VNone (completion E)
  end.

(** An attribute assignment [obj.f = v] with a value of the field's
    declared type. *)
Inductive assignment : Type :=
| SetRoles (v : list string)
| SetMessages (v : list string)
| SetCompletion (v : option string).

Definition target (a : assignment) : field :=
  match a with
  | SetRoles _ => Froles
  | SetMessages _ => Fmessages
  | SetCompletion _ => Fcompletion
  end.

Definition assign (a : assignment) (E : Prompting) : Prompting :=
  match a with
  | SetRoles v => {| roles := v; messages := messages E; completion := completion E |}
  | SetMessages v => {| roles := roles E; messages := v; completion := completion E |}
  | SetCompletion v => {| roles := roles E; messages := messages E; completion := v |}
  end.

(** ** The world and its monad *)

Definition loc : Type := nat.

Record world : Type := mkWorld {
  heap : gmap loc Prompting;
  debug_log : list string
}.

Definition M (A : Type) : Type := world -> (exn + A) * world.

#[global] Instance M_ret : MRet M := fun A (a : A) w => (inr a, w).

#[global] Instance M_bind : MBind M := fun A B (k : A -> M B) (m : M A) w =>
  match m w with
  | (inr a, w') => k a w'
  | (inl e, w') => (inl e, w')
  end.

Definition raise {A : Type} (e : exn) : M A := fun w => (inl e, w).

Fixpoint spaces (n : nat) : string :=
  match n with
  | O => EmptyString
  | S n' => String (Ascii.ascii_of_nat 32) (spaces n')
  end.

(** Python's [str.ljust]: spaces are added on the right up to [width]
    characters; a longer string is returned as it is. *)
Definition ljust (width : nat) (s : string) : string :=
  s +:+ spaces (width - String.length s).

(** [bt.logging.debug]; the notebook runs under [bt.trace()], so debug
    records are emitted.  The logger, library code, left-justifies the
    message to 30 characters; the record of line 153 shows it so. *)
Definition logging_debug (msg : string) : M unit := fun w =>
  (inr (), {| heap := heap w; debug_log := debug_log w ++ [ljust 30 msg] |}).

Definition read (l : loc) : M Prompting := fun w =>
  match heap w !! l with
  | Some E => (inr E, w)
  | None => (inl ReferenceError, w)
  end.

Definition write (l : loc) (E : Prompting) : M unit := fun w =>
  (inr (), {| heap := <[l := E]> (heap w); debug_log := debug_log w |}).

Definition dquote : string := String (Ascii.ascii_of_nat 34) EmptyString.

Definition immutable_message (f : field) : string :=
  dquote +:+ field_name f +:+ dquote
    +:+ " has allow_mutation set to False and cannot be assigned".

(** Attribute assignment on a model instance.  The class body only
    declares the switches; what they mean is pydantic's
    [BaseModel.__setattr__]: under [validate_assignment], assigning to a
    field declared with [allow_mutation=False] raises [TypeError] before
    anything is stored. *)
Definition setattr (cfg : ModelConfig) (self : loc) (a : assignment) : M unit :=
  E ← read self;
  if validate_assignment cfg && negb (allow_mutation (field_info (target a)))
  then raise (TypeError (immutable_message (target a)))
  else write self (assign a E).

Definition getattr {A : Type} (proj : Prompting -> A) (self : loc) : M A :=
  E ← read self; mret (proj E).

(** [Prompting(roles=..., messages=..., completion=...)]: a keyword that
    is not passed is [None] here.  A required field that is missing makes
    validation fail; [completion] falls back to its class default. *)
Definition Prompting_init (kw_roles kw_messages : option (list string))
    (kw_completion : option (option string)) : exn + Prompting :=
  match kw_roles, kw_messages with
  | Some rs, Some ms =>
      inr {| roles := rs; messages := ms;
             completion := default completion_default kw_completion |}
  | _, _ =>
      inl (ValidationError
             (missing Froles kw_roles ++ missing Fmessages kw_messages))
  end.

(** Object creation: validation, then a fresh location. *)
Definition new (kw_roles kw_messages : option (list string))
    (kw_completion : option (option string)) : M loc := fun w =>
  match Prompting_init kw_roles kw_messages kw_completion with
  | inl e => (inl e, w)
  | inr E =>
      let l := fresh (dom (heap w)) in
      (inr l, {| heap := <[l := E]> (heap w); debug_log := debug_log w |})
  end.

(** ** The class's methods and the three attached functions *)

(** Line 51: [def deserialize( self ): return self.completion]. *)
Definition deserialize (self : loc) : M (option string) :=
  getattr completion self.

(** Lines 57-60: the getter that the class body defines under the name
    [required_hash_fields]; it ignores the instance's content. *)
Definition required_hash_fields_getter (self : Prompting) : list string :=
  ["messages"].

(** The base class [bt.Synapse] is library code.  What bears on this
    class is that it declares a pydantic field named
    [required_hash_fields], whose default is the empty list; its other
    fields play no part in what follows and are left out. *)
Definition Synapse_fields : list (string * list string) :=
  [("required_hash_fields", [])].

(** The default of the inherited field [name], if there is one. *)
Fixpoint inherited_default (name : string) (fs : list (string * list string))
    : option (list string) :=
  match fs with
  | [] => None
  | (n, d) :: fs' => if bool_decide (n = name) then Some d else inherited_default name fs'
  end.

(** The fields of the model: the inherited ones, then the class's own. *)
Definition model_fields : list string :=
  map fst Synapse_fields ++ map field_name all_fields.

(** Class creation, pydantic's metaclass: a member of the class body
    whose name is the name of a field, inherited ones included, is left
    out of the class that is built. *)
Definition kept_in_class (name : string) : bool :=
  bool_decide (name ∉ model_fields).

(** [self.required_hash_fields] on an instance, as the class runs: the
    property if the class has kept it, else the content of the instance's
    field of that name.  The constructor is only ever given the class's
    own keywords, so the inherited field holds its default. *)
Definition required_hash_fields (self : Prompting) : list string :=
  if kept_in_class "required_hash_fields"
  then required_hash_fields_getter self
  else default [] (inherited_default "required_hash_fields" Synapse_fields).

(** Lines 62-74. *)
Definition prompt (synapse : loc) : M loc :=
  logging_debug "In prompt!" ;;
  setattr Config synapse (SetCompletion (Some "I am a chatbot")) ;;
  mret synapse.

(** The envelope [E] once [prompt] has answered it. *)
Definition answered (E : Prompting) : Prompting :=
  {| roles := roles E; messages := messages E;
     completion := Some "I am a chatbot" |}.

(** Lines 76-87. *)
Definition blacklist (synapse : loc) : M (bool * string) :=
  mret (false, EmptyString).

(** Lines 89-99. *)
Definition priority (synapse : loc) : M float :=
  mret 0%float.

(** The envelope of the demonstration call, line 243. *)
Definition demo_roles : list string := ["user"].
Definition demo_messages : list string := ["hello, who are you?"].

Definition demo : Prompting :=
  {| roles := demo_roles; messages := demo_messages; completion := None |}.

Definition w0 : world := {| heap := {[ 0 := demo ]}; debug_log := [] |}.

(** What the notebook shows as the call's result, line 196. *)
Definition recorded_response : Prompting :=
  {| roles := ["user"]; messages := ["hello, who are you?"];
     completion := Some "I am a chatbot" |}.



(** ** The integrity hash *)

Section BodyHash.
(** The digest and Python's [str] are library primitives. *)
Variable hash : string -> string.
Variable str : value -> string.

(** The fields of the instance that [required_hash_fields] names. *)
Definition hashed_fields (E : Prompting) : list field :=
  filter (fun f => field_name f ∈ required_hash_fields E) all_fields.

End BodyHash.

(** ** The serving node *)

(** Modelled from the spec: the node and its registrations.  [bt.axon] is
    library code that the sources do not contain; what the notebook shows
    of it are the calls of lines 221-231 and the recorded run.

    A registration: what [axon.attach] registers for a synapse type,
    under the keywords of lines 228-230. *)
Record Registration : Type := mkRegistration {
  forward_fn : loc -> M loc;
  blacklist_fn : loc -> M (bool * string);
  priority_fn : loc -> M float
}.

(** Modelled from the spec: the node owns the registration table, keyed
    by type tag; [handler_calls] counts the handler invocations. *)
Record Node : Type := mkNode {
  registry : gmap string Registration;
  handler_calls : nat
}.

(** Modelled from the spec: the outcomes of a submission, named after the
    spec's error taxonomy. *)
Inductive response : Type :=
| Completed (envelope : loc) (score : float)
| AdmissionRejected (reason : string)
| UnknownType
| HandlerFailed (e : exn).

(** Every object of the heap is a [Prompting]; the tag is the class name
    (the request path of the recorded run is [/Prompting]). *)
Definition type_tag (l : loc) : string := "Prompting".

(** Modelled from the spec: [bt.axon(port=8099)], line 221, a node with
    nothing attached yet. *)
Definition axon : Node := {| registry := ∅; handler_calls := 0 |}.

(** Modelled from the spec:
    [axon.attach(forward_fn=..., blacklist_fn=..., priority_fn=...)]
    registers the three functions under the synapse type's tag. *)
Definition attach (fwd : loc -> M loc) (bl : loc -> M (bool * string))
    (pr : loc -> M float) (n : Node) : Node :=
  {| registry :=
       <["Prompting" :=
          {| forward_fn := fwd; blacklist_fn := bl; priority_fn := pr |}]>
         (registry n);
     handler_calls := handler_calls n |}.

(** The node after one more handler invocation. *)
Definition invoked (n : Node) : Node :=
  {| registry := registry n; handler_calls := S (handler_calls n) |}.

(** Modelled from the spec: the generic reason reported when the filter
    itself raises; the wording is left open. *)
Definition generic_reason : string := "admission filter failed".

(** Modelled from the spec: the node's [submit].  The request path of
    [bt.axon] is library code that the sources do not contain; the
    stages follow the spec's control flow (registration lookup, admission
    filter, priority, handler).  The flag returned by the attached filter
    is read the way the notebook documents [blacklist_fn] (lines 84-85
    and 225): it tells whether the synapse is blacklisted, so [true]
    rejects.  This is the reading under which the recorded run is
    possible: the filter returns [False] with an empty reason, the handler
    is entered (line 153) and the request ends with status 200. *)
Definition submit (n : Node) (l : loc) (w : world) : response * Node * world :=
  match registry n !! type_tag l with
  | None => (UnknownType, n, w)
  | Some r =>
      match blacklist_fn r l w with
      | (inl _, w1) => (AdmissionRejected generic_reason, n, w1)
      | (inr (true, reason), w1) => (AdmissionRejected reason, n, w1)
      | (inr (false, _), w1) =>
          match priority_fn r l w1 with
          | (inl e, w2) => (HandlerFailed e, n, w2)
          | (inr score, w2) =>
              match forward_fn r l w2 with
              | (inl e, w3) => (HandlerFailed e, invoked n, w3)
              | (inr l', w3) => (Completed l' score, invoked n, w3)
              end
          end
      end
  end.

(** Lines 221-231. *)
Definition demo_axon : Node := attach prompt blacklist priority axon.

(** The claim on admission as it is worded, over [submit]: a filter
    result [(false, r)] rejects with reason [r] and leaves the handler
    uninvoked. *)
Definition rejects_on_false : Prop :=
  forall (n : Node) (r : Registration) (l : loc) (w w1 : world) (reason : string),
    registry n !! type_tag l = Some r ->
    blacklist_fn r l w = (inr (false, reason), w1) ->
    fst (fst (submit n l w)) = AdmissionRejected reason /\
    handler_calls (snd (fst (submit n l w))) = handler_calls n.

(** A second envelope, already answered by something else, and a world
    holding both. *)
Definition other : Prompting :=
  {| roles := ["system"; "user"]; messages := ["be brief"; "hi"];
     completion := Some "stale" |}.

Definition w1 : world :=
  {| heap := <[ 3 := other ]> {[ 0 := demo ]}; debug_log := ["started"] |}.

(** * Properties *)

Example demo_init :
  Prompting_init (Some demo_roles) (Some demo_messages) None = inr demo.
Proof. reflexivity. Qed.

Example init_without_roles :
  Prompting_init None (Some demo_messages) None
  = inl (ValidationError [("roles", "field required")]).
Proof. reflexivity. Qed.

Example ljust_pads :
  ljust 30 "In prompt!" = "In prompt!                    " /\
  String.length (ljust 30 "In prompt!") = 30 /\
  ljust 3 "In prompt!" = "In prompt!".
Proof. repeat split. Qed.

Example w0_lookup : heap w0 !! 0 = Some demo.
Proof. reflexivity. Qed.

Example prompt_demo :
  prompt 0 w0 =
  (inr 0, {| heap := {[ 0 := assign (SetCompletion (Some "I am a chatbot")) demo ]};
             debug_log := [ljust 30 "In prompt!"] |}).
Proof. vm_compute. reflexivity. Qed.

(** ** Stepping the monad *)

Lemma bind_ok {A B : Type} (m : M A) (k : A -> M B) (w w' : world) (a : A) :
  m w = (inr a, w') -> (m ≫= k) w = k a w'.
Proof. intros Hm. unfold mbind, M_bind. now rewrite Hm. Qed.

Lemma read_allocated (w : world) (l : loc) (E : Prompting) :
  heap w !! l = Some E -> read l w = (inr E, w).
Proof. intros Hl. unfold read. now rewrite Hl. Qed.

(** ** Attribute assignment *)

Lemma setattr_frozen (w : world) (l : loc) (E : Prompting) (a : assignment) :
  heap w !! l = Some E ->
  allow_mutation (field_info (target a)) = false ->
  setattr Config l a w = (inl (TypeError (immutable_message (target a))), w).
Proof.
  intros Hl Hfrozen. unfold setattr.
  rewrite (bind_ok _ _ w w E (read_allocated w l E Hl)).
  now rewrite Hfrozen.
Qed.

Lemma setattr_mutable (w : world) (l : loc) (E : Prompting) (a : assignment) :
  heap w !! l = Some E ->
  allow_mutation (field_info (target a)) = true ->
  setattr Config l a w =
  (inr (), {| heap := <[l := assign a E]> (heap w); debug_log := debug_log w |}).
Proof.
  intros Hl Hmut. unfold setattr.
  rewrite (bind_ok _ _ w w E (read_allocated w l E Hl)).
  now rewrite Hmut.
Qed.

(** Without [validate_assignment] the switch on the field is not looked
    at: the rejection comes from the two declarations together. *)
Lemma setattr_unvalidated (w : world) (l : loc) (E : Prompting) (a : assignment) :
  heap w !! l = Some E ->
  setattr {| validate_assignment := false |} l a w =
  (inr (), {| heap := <[l := assign a E]> (heap w); debug_log := debug_log w |}).
Proof.
  intros Hl. unfold setattr.
  now rewrite (bind_ok _ _ w w E (read_allocated w l E Hl)).
Qed.

(** ** The handler *)

Lemma prompt_run (w : world) (l : loc) (E : Prompting) :
  heap w !! l = Some E ->
  prompt l w =
  (inr l, {| heap := <[l := answered E]> (heap w);
             debug_log := debug_log w ++ [ljust 30 "In prompt!"] |}).
Proof.
  intros Hl. unfold prompt, mbind, M_bind, logging_debug.
  rewrite (setattr_mutable _ l E); [reflexivity | exact Hl | reflexivity].
Qed.

Lemma new_run (w : world) (rs ms : list string) :
  new (Some rs) (Some ms) None w =
  (inr (fresh (dom (heap w))),
   {| heap := <[fresh (dom (heap w)) :=
                  {| roles := rs; messages := ms; completion := None |}]> (heap w);
      debug_log := debug_log w |}).
Proof. reflexivity. Qed.

Lemma new_is_fresh (w : world) : heap w !! fresh (dom (heap w)) = None.
Proof. apply not_elem_of_dom. apply is_fresh. Qed.

(** An envelope built from [roles] and [messages] and then handled keeps
    the two lists it was built with. *)
Lemma prompt_after_new (w : world) (rs ms : list string) :
  exists (l : loc) (w' : world),
    (new (Some rs) (Some ms) None ≫= prompt) w = (inr l, w') /\
    heap w' !! l =
      Some {| roles := rs; messages := ms; completion := Some "I am a chatbot" |}.
Proof.
  eexists _, _. split.
  - erewrite bind_ok; [|apply new_run].
    apply prompt_run. cbn. apply lookup_insert_eq.
  - cbn. apply lookup_insert_eq.
Qed.

(** C1: for an envelope [E] stored at [l], [prompt] returns the very
    reference [l] it was given; afterwards the object at [l] has its
    completion set to the handler's string, its [roles] and [messages] are
    those of [E], and no other object of the heap has changed. *)
Theorem prompt_sets_completion_only (w : world) (l : loc) (E : Prompting) :
  heap w !! l = Some E ->
  exists w' : world,
    prompt l w = (inr l, w') /\
    heap w' !! l =
      Some {| roles := roles E; messages := messages E;
              completion := Some "I am a chatbot" |} /\
    (forall l' : loc, l' <> l -> heap w' !! l' = heap w !! l').
Proof.
  intros Hl. eexists. split; [apply (prompt_run w l E Hl)|]. cbn. split.
  - apply lookup_insert_eq.
  - intros l' Hne. now apply lookup_insert_ne.
Qed.

Lemma prompt_sets_completion_only_witness :
  heap w0 !! 0 = Some demo /\
  exists w' : world,
    prompt 0 w0 = (inr 0, w') /\
    heap w' !! 0 = Some recorded_response /\
    (forall l' : loc, l' <> 0 -> heap w' !! l' = heap w0 !! l').
Proof.
  split; [reflexivity|].
  apply (prompt_sets_completion_only w0 0 demo). reflexivity.
Defined.

(** C2: on a constructed envelope, an assignment to [roles] or to
    [messages] raises [TypeError] and leaves the world, hence the stored
    lists, as they were. *)
Theorem roles_messages_assignment_rejected
    (w : world) (l : loc) (E : Prompting) (a : assignment) :
  heap w !! l = Some E ->
  target a = Froles \/ target a = Fmessages ->
  setattr Config l a w = (inl (TypeError (immutable_message (target a))), w) /\
  heap (snd (setattr Config l a w)) !! l = Some E.
Proof.
  intros Hl Ha.
  assert (Hrun : setattr Config l a w
                 = (inl (TypeError (immutable_message (target a))), w)).
  { apply (setattr_frozen w l E a Hl). now destruct Ha as [-> | ->]. }
  rewrite Hrun. now split.
Qed.

Lemma roles_messages_assignment_rejected_witness :
  heap w0 !! 0 = Some demo /\
  setattr Config 0 (SetRoles ["system"]) w0 =
    (inl (TypeError (immutable_message Froles)), w0) /\
  heap (snd (setattr Config 0 (SetRoles ["system"]) w0)) !! 0 = Some demo.
Proof.
  split; [reflexivity|].
  apply (roles_messages_assignment_rejected w0 0 demo (SetRoles ["system"])).
  - reflexivity.
  - left. reflexivity.
Defined.

(** ** The admission filter and the priority *)

Lemma demo_registration (l : loc) :
  registry demo_axon !! type_tag l =
  Some {| forward_fn := prompt; blacklist_fn := blacklist; priority_fn := priority |}.
Proof. apply lookup_insert_eq. Qed.

Lemma submit_demo (l : loc) (w : world) :
  submit demo_axon l w =
  match prompt l w with
  | (inl e, w') => (HandlerFailed e, invoked demo_axon, w')
  | (inr l', w') => (Completed l' 0%float, invoked demo_axon, w')
  end.
Proof. unfold submit. now rewrite demo_registration. Qed.

(** C3: [blacklist] answers [False] with the empty reason for every
    envelope, and a node with it attached rejects no submission. *)
Theorem blacklist_never_rejects (l : loc) (w : world) :
  blacklist l w = (inr (false, EmptyString), w) /\
  (forall reason : string,
      fst (fst (submit demo_axon l w)) <> AdmissionRejected reason).
Proof.
  split; [reflexivity|]. intros reason. rewrite submit_demo.
  now destruct (prompt l w) as [[e|l'] w'].
Qed.

(** C6: [priority] is [0.0] for every envelope, so any two envelopes get
    the same score. *)
Theorem priority_is_zero (l : loc) (w : world) :
  priority l w = (inr 0%float, w) /\
  (forall (l' : loc) (w' : world), fst (priority l w) = fst (priority l' w')).
Proof. split; reflexivity. Qed.

(** C8: evaluating [blacklist] leaves the world as it was, and with it
    every field of the envelope. *)
Theorem blacklist_no_effect (l : loc) (w : world) :
  snd (blacklist l w) = w /\
  (forall f : field,
      field_value f <$> heap (snd (blacklist l w)) !! l =
      field_value f <$> heap w !! l).
Proof. split; reflexivity. Qed.

(** The demonstration call, lines 241-246: the envelope is admitted, the
    handler runs once and the object holds what the notebook shows as the
    result. *)
Lemma demo_run :
  submit demo_axon 0 w0 =
  (Completed 0 0%float, invoked demo_axon,
   {| heap := {[ 0 := recorded_response ]};
      debug_log := [ljust 30 "In prompt!"] |}).
Proof.
  rewrite submit_demo, (prompt_run w0 0 demo eq_refl).
  unfold w0. cbn. now rewrite insert_singleton_eq.
Qed.

(** C4, as worded, fails at the demonstration call: the attached filter
    returns [false] with the empty reason, and the submission is served,
    with one handler invocation, not rejected. *)
Lemma filter_false_is_served :
  blacklist_fn
    {| forward_fn := prompt; blacklist_fn := blacklist; priority_fn := priority |}
    0 w0 = (inr (false, EmptyString), w0) /\
  fst (fst (submit demo_axon 0 w0)) = Completed 0 0%float /\
  fst (fst (submit demo_axon 0 w0)) <> AdmissionRejected EmptyString /\
  handler_calls (snd (fst (submit demo_axon 0 w0))) = 1 /\
  ~ rejects_on_false.
Proof.
  rewrite demo_run. cbn. repeat split; try discriminate.
  intros Hclaim.
  destruct (Hclaim demo_axon _ 0 w0 w0 EmptyString (demo_registration 0) eq_refl)
    as [Hresp _].
  rewrite demo_run in Hresp. discriminate Hresp.
Qed.

(** C4, amended: when the attached filter reports the envelope as
    blacklisted, [(true, r)], the submission is rejected with reason [r];
    the node's invocation counter and registrations are untouched and the
    world is the one the filter left, so the handler was not run. *)
Theorem blacklisted_is_rejected
    (n : Node) (r : Registration) (l : loc) (w w1 : world) (reason : string) :
  registry n !! type_tag l = Some r ->
  blacklist_fn r l w = (inr (true, reason), w1) ->
  submit n l w = (AdmissionRejected reason, n, w1) /\
  handler_calls (snd (fst (submit n l w))) = handler_calls n.
Proof.
  intros Hreg Hfilter.
  assert (Hrun : submit n l w = (AdmissionRejected reason, n, w1)).
  { unfold submit. now rewrite Hreg, Hfilter. }
  rewrite Hrun. now split.
Qed.

Lemma blacklisted_is_rejected_witness :
  let deny : loc -> M (bool * string) := fun _ => mret (true, "banned") in
  let n := attach prompt deny priority axon in
  submit n 0 w0 = (AdmissionRejected "banned", n, w0) /\
  handler_calls (snd (fst (submit n 0 w0))) = 0.
Proof.
  intros deny n.
  apply (blacklisted_is_rejected n
           {| forward_fn := prompt; blacklist_fn := deny; priority_fn := priority |}
           0 w0 w0 "banned").
  - apply lookup_insert_eq.
  - reflexivity.
Defined.

(** ** The integrity hash *)

Lemma required_hash_fields_dropped : kept_in_class "required_hash_fields" = false.
Proof. reflexivity. Qed.

Lemma hashed_fields_none (E : Prompting) : hashed_fields E = [].
Proof. reflexivity. Qed.


(** ** Construction and deserialization *)

(** C7: construction from [roles] and [messages] alone leaves [completion]
    unset: the validated object has [completion = None], and so has the
    object stored at the fresh location. *)
Theorem constructed_completion_unset (w : world) (rs ms : list string) :
  Prompting_init (Some rs) (Some ms) None
    = inr {| roles := rs; messages := ms; completion := None |} /\
  exists (l : loc) (w' : world),
    new (Some rs) (Some ms) None w = (inr l, w') /\
    heap w !! l = None /\
    (completion <$> heap w' !! l) = Some None.
Proof.
  split; [reflexivity|]. eexists _, _. split; [apply new_run|]. split.
  - apply new_is_fresh.
  - cbn. now rewrite lookup_insert_eq.
Qed.

Lemma deserialize_run (w : world) (l : loc) (E : Prompting) :
  heap w !! l = Some E -> deserialize l w = (inr (completion E), w).
Proof.
  intros Hl. unfold deserialize, getattr.
  now rewrite (bind_ok _ _ w w E (read_allocated w l E Hl)).
Qed.

(** C9: [deserialize] returns the envelope's [completion] and changes
    nothing; on a freshly constructed envelope that is [None]. *)
Theorem deserialize_returns_completion (w : world) (l : loc) (E : Prompting) :
  heap w !! l = Some E ->
  deserialize l w = (inr (completion E), w) /\
  (forall rs ms : list string,
      fst ((new (Some rs) (Some ms) None ≫= deserialize) w) = inr None).
Proof.
  intros Hl. split; [now apply deserialize_run|]. intros rs ms.
  erewrite bind_ok; [|apply new_run].
  now rewrite (deserialize_run _ _ {| roles := rs; messages := ms; completion := None |}
                 (lookup_insert_eq _ _ _)).
Qed.

Lemma deserialize_returns_completion_witness :
  heap w0 !! 0 = Some demo /\
  deserialize 0 w0 = (inr None, w0) /\
  (forall rs ms : list string,
      fst ((new (Some rs) (Some ms) None ≫= deserialize) w0) = inr None).
Proof.
  split; [reflexivity|].
  apply (deserialize_returns_completion w0 0 demo). reflexivity.
Defined.

(** C10: whatever two envelopes are handled, in whatever worlds, the
    completions [prompt] leaves in them are equal, both being the constant
    string of the handler. *)
Theorem completion_independent_of_request
    (w1 w2 : world) (l1 l2 : loc) (E1 E2 : Prompting) :
  heap w1 !! l1 = Some E1 ->
  heap w2 !! l2 = Some E2 ->
  (completion <$> heap (snd (prompt l1 w1)) !! l1)
    = (completion <$> heap (snd (prompt l2 w2)) !! l2) /\
  (completion <$> heap (snd (prompt l1 w1)) !! l1)
    = Some (Some "I am a chatbot").
Proof.
  intros H1 H2.
  rewrite (prompt_run w1 l1 E1 H1), (prompt_run w2 l2 E2 H2). cbn.
  now rewrite !lookup_insert_eq.
Qed.

Lemma completion_independent_of_request_witness :
  let other := {| roles := ["system"; "user"]; messages := ["be brief"; "hi"];
                  completion := Some "stale" |} in
  let w := {| heap := {[ 3 := other ]}; debug_log := ["started"] |} in
  (completion <$> heap (snd (prompt 0 w0)) !! 0)
    = (completion <$> heap (snd (prompt 3 w)) !! 3) /\
  (completion <$> heap (snd (prompt 0 w0)) !! 0)
    = Some (Some "I am a chatbot").
Proof.
  intros other w.
  apply (completion_independent_of_request w0 w 0 3 demo other); reflexivity.
Defined.

(** * Further properties of the notebook's code *)

(** ** How the handler composes *)

Lemma setattr_unallocated (cfg : ModelConfig) (w : world) (l : loc) (a : assignment) :
  heap w !! l = None -> setattr cfg l a w = (inl ReferenceError, w).
Proof. intros Hl. unfold setattr, mbind, M_bind, read. now rewrite Hl. Qed.

Lemma prompt_unallocated (w : world) (l : loc) :
  heap w !! l = None ->
  prompt l w =
  (inl ReferenceError,
   {| heap := heap w; debug_log := debug_log w ++ [ljust 30 "In prompt!"] |}).
Proof.
  intros Hl. unfold prompt, mbind, M_bind, logging_debug.
  now rewrite setattr_unallocated.
Qed.

Lemma answered_twice (E : Prompting) : answered (answered E) = answered E.
Proof. reflexivity. Qed.

(** X1: handling an envelope again, through the reference the first call
    returned, leaves the heap as the first call left it. *)
Theorem prompt_idempotent_on_heap (l : loc) (w : world) :
  heap (snd ((prompt l ≫= prompt) w)) = heap (snd (prompt l w)).
Proof.
  destruct (heap w !! l) as [E|] eqn:Hl.
  - rewrite (bind_ok _ _ _ _ _ (prompt_run w l E Hl)).
    rewrite (prompt_run w l E Hl).
    rewrite (prompt_run _ l (answered E) (lookup_insert_eq _ _ _)). cbn.
    now rewrite insert_insert_eq, answered_twice.
  - unfold mbind, M_bind. now rewrite (prompt_unallocated w l Hl).
Qed.

(** X2: handling two envelopes in one order or the other ends in the same
    world: the handler of one request does not interfere with another's. *)
Theorem prompt_commutes (w : world) (l1 l2 : loc) (E1 E2 : Prompting) :
  heap w !! l1 = Some E1 ->
  heap w !! l2 = Some E2 ->
  snd ((prompt l1 ;; prompt l2) w) = snd ((prompt l2 ;; prompt l1) w).
Proof.
  intros H1 H2.
  rewrite (bind_ok _ _ _ _ _ (prompt_run w l1 E1 H1)).
  rewrite (bind_ok _ _ _ _ _ (prompt_run w l2 E2 H2)).
  destruct (decide (l1 = l2)) as [->|Hne].
  - replace E2 with E1 by congruence. reflexivity.
  - rewrite (prompt_run _ l2 E2), (prompt_run _ l1 E1); cbn.
    + f_equal. now apply insert_insert_ne.
    + rewrite lookup_insert_ne; [exact H1 | congruence].
    + now rewrite lookup_insert_ne.
Qed.

Lemma prompt_commutes_witness :
  heap w1 !! 0 = Some demo /\ heap w1 !! 3 = Some other /\
  snd ((prompt 0 ;; prompt 3) w1) = snd ((prompt 3 ;; prompt 0) w1).
Proof.
  split; [reflexivity|]. split; [reflexivity|].
  apply (prompt_commutes w1 0 3 demo other); reflexivity.
Defined.

(** X3: [blacklist] and [priority] have no effect on what follows: run in
    the order the axon runs them before any computation, the outcome is
    that of the computation alone. *)
Theorem filters_are_transparent {A : Type} (l : loc) (k : M A) (w : world) :
  (blacklist l ;; priority l ;; k) w = k w /\
  (priority l ;; blacklist l ;; k) w = k w.
Proof. split; reflexivity. Qed.

(** X4: [deserialize] on the reference [prompt] returns yields the
    handler's string, whatever completion the envelope held before, and
    the world is the one [prompt] left. *)
Theorem prompt_then_deserialize (w : world) (l : loc) (E : Prompting) :
  heap w !! l = Some E ->
  (prompt l ≫= deserialize) w = (inr (Some "I am a chatbot"), snd (prompt l w)).
Proof.
  intros Hl.
  rewrite (bind_ok _ _ _ _ _ (prompt_run w l E Hl)), (prompt_run w l E Hl).
  now rewrite (deserialize_run _ l (answered E) (lookup_insert_eq _ _ _)).
Qed.

Lemma prompt_then_deserialize_witness :
  heap w1 !! 3 = Some other /\
  (prompt 3 ≫= deserialize) w1 = (inr (Some "I am a chatbot"), snd (prompt 3 w1)).
Proof.
  split; [reflexivity|].
  apply (prompt_then_deserialize w1 3 other). reflexivity.
Defined.

(** X5: [prompt] neither creates nor removes an object, and adds exactly
    one record at the end of the debug log: its message, padded with
    spaces to 30 characters as line 153 shows it. *)
Theorem prompt_footprint (w : world) (l : loc) (E : Prompting) :
  heap w !! l = Some E ->
  dom (heap (snd (prompt l w))) = dom (heap w) /\
  debug_log (snd (prompt l w))
  = (debug_log w ++ ["In prompt!                    "])%list.
Proof.
  intros Hl. rewrite (prompt_run w l E Hl). cbn. split; [|reflexivity].
  apply dom_insert_lookup_L. now rewrite Hl.
Qed.

Lemma prompt_footprint_witness :
  heap w1 !! 0 = Some demo /\
  dom (heap (snd (prompt 0 w1))) = dom (heap w1) /\
  debug_log (snd (prompt 0 w1)) = ["started"; "In prompt!                    "].
Proof.
  split; [reflexivity|].
  apply (prompt_footprint w1 0 demo). reflexivity.
Defined.

(** ** Attribute assignment on a constructed envelope *)




(** X7: what is assigned to [completion] is what [deserialize] then
    returns, [None] included, and the assignment changes neither [roles]
    nor [messages]. *)
Theorem completion_assign_then_deserialize
    (w : world) (l : loc) (E : Prompting) (v : option string) :
  heap w !! l = Some E ->
  (setattr Config l (SetCompletion v) ;; deserialize l) w =
  (inr v,
   {| heap := <[l := {| roles := roles E; messages := messages E;
                        completion := v |}]> (heap w);
      debug_log := debug_log w |}).
Proof.
  intros Hl.
  rewrite (bind_ok _ _ _ _ _ (setattr_mutable w l E (SetCompletion v) Hl eq_refl)).
  now rewrite (deserialize_run _ l _ (lookup_insert_eq _ _ _)).
Qed.

Lemma completion_assign_then_deserialize_witness :
  heap w1 !! 3 = Some other /\
  (setattr Config 3 (SetCompletion None) ;; deserialize 3) w1 =
  (inr None,
   {| heap := <[3 := {| roles := roles other; messages := messages other;
                        completion := None |}]> (heap w1);
      debug_log := debug_log w1 |}).
Proof.
  split; [reflexivity|].
  apply (completion_assign_then_deserialize w1 3 other None). reflexivity.
Defined.

(** X8: [completion] is not write-once: a second assignment is accepted,
    the field then holds the second value, and the world is the one the
    second assignment alone would give. *)
Theorem completion_last_write_wins
    (w : world) (l : loc) (E : Prompting) (v1 v2 : option string) :
  heap w !! l = Some E ->
  (setattr Config l (SetCompletion v1) ;; setattr Config l (SetCompletion v2)) w
  = (inr (),
     {| heap := <[l := {| roles := roles E; messages := messages E;
                          completion := v2 |}]> (heap w);
        debug_log := debug_log w |}) /\
  (setattr Config l (SetCompletion v1) ;; setattr Config l (SetCompletion v2)) w
  = setattr Config l (SetCompletion v2) w.
Proof.
  intros Hl.
  rewrite (bind_ok _ _ _ _ _ (setattr_mutable w l E (SetCompletion v1) Hl eq_refl)).
  rewrite (setattr_mutable _ l _ _ (lookup_insert_eq _ _ _)) by reflexivity.
  rewrite (setattr_mutable w l E _ Hl) by reflexivity. cbn.
  now rewrite insert_insert_eq.
Qed.

Lemma completion_last_write_wins_witness :
  heap w0 !! 0 = Some demo /\
  (setattr Config 0 (SetCompletion (Some "first")) ;;
   setattr Config 0 (SetCompletion (Some "second"))) w0
  = (inr (),
     {| heap := <[0 := {| roles := roles demo; messages := messages demo;
                          completion := Some "second" |}]> (heap w0);
        debug_log := debug_log w0 |}) /\
  (setattr Config 0 (SetCompletion (Some "first")) ;;
   setattr Config 0 (SetCompletion (Some "second"))) w0
  = setattr Config 0 (SetCompletion (Some "second")) w0.
Proof.
  split; [reflexivity|].
  apply (completion_last_write_wins w0 0 demo). reflexivity.
Defined.

(** ** Construction *)


(** ** From construction to the answer *)

(** X12: an envelope built from any [roles] and [messages], with or
    without a [completion], then handled: it lives at a location that was
    free, holds the lists it was built with and the handler's string,
    which is what [deserialize] returns; every older object is as it
    was. *)
Theorem construct_handle_deserialize
    (w : world) (rs ms : list string) (kc : option (option string)) :
  exists (l : loc) (w' : world),
    (new (Some rs) (Some ms) kc ≫= prompt) w = (inr l, w') /\
    heap w !! l = None /\
    heap w' !! l =
      Some {| roles := rs; messages := ms; completion := Some "I am a chatbot" |} /\
    deserialize l w' = (inr (Some "I am a chatbot"), w') /\
    (forall l' : loc, l' <> l -> heap w' !! l' = heap w !! l').
Proof.
  set (E := {| roles := rs; messages := ms;
               completion := default completion_default kc |}).
  set (l := fresh (dom (heap w))).
  assert (Hnew : new (Some rs) (Some ms) kc w
                 = (inr l, {| heap := <[l := E]> (heap w);
                              debug_log := debug_log w |})) by reflexivity.
  eexists l, _. split.
  { rewrite (bind_ok _ _ _ _ _ Hnew).
    apply (prompt_run _ l E). apply lookup_insert_eq. }
  cbn. split; [apply new_is_fresh|].
  assert (Hl : <[l := answered E]> (<[l := E]> (heap w)) !! l = Some (answered E))
    by apply lookup_insert_eq.
  split; [exact Hl|]. split.
  - apply (deserialize_run _ l (answered E)). exact Hl.
  - intros l' Hne. now rewrite !lookup_insert_ne.
Qed.
